(** * Odds normalisation (normaliz_odds.py): a shallow embedding

    The module reads snapshot documents (JSON: events, bookmakers, markets,
    outcomes), converts American odds to decimal odds, to implied
    probabilities and to fair probabilities, and flattens the result into
    rows that are saved as JSON and CSV.

    Conventions of the embedding.
    - A value produced by [json.load] is a [value]: None, bool, int, float,
      str, list or dict with string keys (a [gmap]).
    - A Python [float] is an exact rational ([Q]); binary64 rounding,
      overflow and the non-finite floats are outside the model.  Equations
      between floats are therefore stated with [==].
    - A Python exception is the [Raise] branch of [result]; the code has no
      [try], so the first exception ends the call.
    - Files are reached through a [world]: what [os.listdir] returns, what
      [json.load] gives for a path, and which paths can be opened for
      writing.  The files written are recorded in order in a trace.
      Output on stdout ([print]) is not recorded; the [print] of line 102,
      which is indented deeper than the block it follows, is therefore
      not placed.

    Two helpers of Snapshot/API-Sports/snapshot_apisports_v1_1.py that work
    on the same values, [get_season_value] and [coverage_to_categories], are
    embedded with the same conventions. *)

From Stdlib Require Import QArith Qround Qabs Lqa.
From stdpp Require Import gmap strings list fin_maps.

(** ** Python values and exceptions *)

#[warnings="-register-all"]
Inductive value : Type :=
| VNone
| VBool (b : bool)
| VInt (z : Z)
| VFloat (q : Q)
| VStr (s : string)
| VList (l : list value)
| VDict (d : gmap string value).

Inductive exn : Type :=
| TypeError
| AttributeError
| ZeroDivisionError
| IndexError
| JSONDecodeError
| OSError.

Inductive result (A : Type) : Type :=
| Ok (a : A)
| Raise (e : exn).
Arguments Ok {A} a.
Arguments Raise {A} e.

#[global] Instance result_ret : MRet result := λ A a, Ok a.

#[global] Instance result_bind : MBind result := λ A B k m,
  match m with
  | Ok a => k a
  | Raise e => Raise e
  end.

Definition raises {A : Type} (m : result A) : Prop :=
  match m with
  | Ok _ => False
  | Raise _ => True
  end.

(** [for x in xs: body] over a state [s] that the body updates. *)
Fixpoint for_each {A S : Type} (xs : list A) (body : A → S → result S) (s : S)
  : result S :=
  match xs with
  | [] => Ok s
  | x :: xs' => s' ← body x s; for_each xs' body s'
  end.

(** [[f(x) for x in xs]] *)
Fixpoint comprehension {A B : Type} (f : A → result B) (xs : list A)
  : result (list B) :=
  match xs with
  | [] => Ok []
  | x :: xs' => y ← f x; ys ← comprehension f xs'; Ok (y :: ys)
  end.

(** [enumerate(xs)], counting from [i]. *)
Fixpoint enumerate_from {A : Type} (i : nat) (xs : list A) : list (nat * A) :=
  match xs with
  | [] => []
  | x :: xs' => (i, x) :: enumerate_from (S i) xs'
  end.

Definition enumerate {A : Type} (xs : list A) : list (nat * A) :=
  enumerate_from 0 xs.

(** [xs[idx]] for [idx >= 0] *)
Definition index {A : Type} (xs : list A) (idx : nat) : result A :=
  match xs !! idx with
  | Some x => Ok x
  | None => Raise IndexError
  end.

(** ** Built-ins the module uses *)

(** [d.get(key)] and [d.get(key, default)]: only a dict has [get]. *)
Definition get_default (v : value) (key : string) (dflt : value)
  : result value :=
  match v with
  | VDict d => Ok (default dflt (d !! key))
  | _ => Raise AttributeError
  end.

Definition get (v : value) (key : string) : result value :=
  get_default v key VNone.

Fixpoint chars (s : string) : list value :=
  match s with
  | EmptyString => []
  | String c s' => VStr (String c EmptyString) :: chars s'
  end.

(** What a [for] loop or a comprehension runs over: the elements of a list,
    the characters of a str (here its bytes), the keys of a dict (here in
    the order of the map, not of insertion); other values are not iterable.
    The loops of this module call [get] on every element, so for a str or a
    dict only its being empty or not makes a difference. *)
Definition iter (v : value) : result (list value) :=
  match v with
  | VList l => Ok l
  | VStr s => Ok (chars s)
  | VDict d => Ok (VStr <$> (map_to_list d).*1)
  | _ => Raise TypeError
  end.

(** The number a value stands for in arithmetic and comparisons. *)
Definition number (v : value) : result Q :=
  match v with
  | VInt z => Ok (inject_Z z)
  | VBool b => Ok (if b then 1 else 0)%Q
  | VFloat q => Ok q
  | _ => Raise TypeError
  end.

(** [a / b] on numbers *)
Definition truediv (a b : Q) : result Q :=
  if Qeq_bool b 0 then Raise ZeroDivisionError else Ok (a / b)%Q.

(** [sum(xs)]: from 0, left to right *)
Definition sum (xs : list Q) : Q := fold_left Qplus xs 0%Q.

(** [round(x, ndigits)]: to the nearest multiple of [10^-ndigits], a tie
    going to the even one. *)
Definition round_half_even (y : Q) : Z :=
  let n := Qfloor y in
  match (y - inject_Z n ?= 1 # 2)%Q with
  | Lt => n
  | Gt => (n + 1)%Z
  | Eq => if Z.even n then n else (n + 1)%Z
  end.

Definition round (x : Q) (ndigits : nat) : Q :=
  let scale := (10 ^ Z.of_nat ndigits)%Z in
  (inject_Z (round_half_even (x * inject_Z scale)) / inject_Z scale)%Q.

(** [s.startswith(prefix)] and [s.endswith(suffix)] *)
Definition startswith (s prefix : string) : bool := String.prefix prefix s.

Definition endswith (s suffix : string) : bool :=
  let n := String.length s in
  let m := String.length suffix in
  if (m <=? n)%nat
  then String.eqb (String.substring (n - m) m s) suffix
  else false.

(** [s.replace(old, new)] for a non-empty [old]: the occurrences of [old]
    are replaced from left to right, without overlap.  [skip] counts the
    characters of an occurrence that are still to be dropped. *)
Fixpoint replace_from (skip : nat) (s old new : string) : string :=
  match s with
  | EmptyString => EmptyString
  | String c s' =>
      match skip with
      | S k => replace_from k s' old new
      | O =>
          if String.prefix old s
          then new +:+ replace_from (String.length old - 1) s' old new
          else String c (replace_from 0 s' old new)
      end
  end.

Definition replace (s old new : string) : string := replace_from 0 s old new.

(** [os.path.join(a, b)] on POSIX *)
Definition path_join (a b : string) : string :=
  if startswith b "/" then b
  else if String.eqb a "" || endswith a "/" then a +:+ b
  else a +:+ "/" +:+ b.

(** ** normaliz_odds.py *)

Definition SNAPSHOT_FOLDER : string := "snapshots".
Definition NORMALIZED_FOLDER : string := "normalized".

(** The module-level [sport]. *)
Definition sport : string := "basketball_nba".

Definition american_to_decimal (odds : value) : result Q :=
  o ← number odds;
  if Qlt_le_dec 0 o
  then q ← truediv o 100; Ok (1 + q)%Q
  else q ← truediv 100 (Qabs o); Ok (1 + q)%Q.

Definition compute_implied_prob (decimal_odds : Q) : result Q :=
  truediv 1 decimal_odds.

Definition remove_vig (probabilities : list Q) : result (list Q) :=
  let total := sum probabilities in
  comprehension (fun p => truediv p total) probabilities.


(** The dict built for each outcome; its keys are fixed, in this order. *)
Module NRow.
Record t : Type := Build {
  event_id : value;
  sport : value;
  commence_time : value;
  bookmaker : value;
  market : value;
  outcome : value;
  american_odds : value;
  decimal_odds : Q;
  implied_probability : Q;
  fair_probability : Q;
  last_update : value
}.

Definition keys : list string :=
  ["event_id"; "sport"; "commence_time"; "bookmaker"; "market"; "outcome";
   "american_odds"; "decimal_odds"; "implied_probability";
   "fair_probability"; "last_update"].
End NRow.

(** [market.get("outcomes", [])] as the loops run over it; the other
    collections are read the same way. *)
Definition collection (v : value) (key : string) : result (list value) :=
  c ← get_default v key (VList []); iter c.

(** Body of [for idx, outcome in enumerate(...)]. *)
Definition outcome_body
    (event_id sport commence_time bookmaker_name last_update market_key : value)
    (decimal_odds_list implied_probs fair_probs : list Q)
    (item : nat * value) (normalized_rows : list NRow.t)
  : result (list NRow.t) :=
  let '(idx, outcome) := item in
  outcome_name ← get outcome "name";
  american_odds ← get outcome "price";
  decimal_odds ← index decimal_odds_list idx;
  implied_prob ← index implied_probs idx;
  fair_prob ← index fair_probs idx;
  let row := {|
    NRow.event_id := event_id;
    NRow.sport := sport;
    NRow.commence_time := commence_time;
    NRow.bookmaker := bookmaker_name;
    NRow.market := market_key;
    NRow.outcome := outcome_name;
    NRow.american_odds := american_odds;
    NRow.decimal_odds := round decimal_odds 4;
    NRow.implied_probability := round implied_prob 4;
    NRow.fair_probability := round fair_prob 4;
    NRow.last_update := last_update
  |} in
  Ok (normalized_rows ++ [row]).

(** Body of [for market in bookmaker.get("markets", [])]. *)
Definition market_body
    (event_id sport commence_time bookmaker_name last_update : value)
    (market : value) (normalized_rows : list NRow.t) : result (list NRow.t) :=
  market_key ← get market "key";
  outcomes ← collection market "outcomes";
  decimal_odds_list ←
    comprehension (λ o, price ← get o "price"; american_to_decimal price)
                  outcomes;
  implied_probs ← comprehension compute_implied_prob decimal_odds_list;
  fair_probs ← remove_vig implied_probs;
  outcomes ← collection market "outcomes";
  for_each (enumerate outcomes)
    (outcome_body event_id sport commence_time bookmaker_name last_update
                  market_key decimal_odds_list implied_probs fair_probs)
    normalized_rows.

(** Body of [for bookmaker in event.get("bookmakers", [])]. *)
Definition bookmaker_body (event_id sport commence_time : value)
    (bookmaker : value) (normalized_rows : list NRow.t) : result (list NRow.t) :=
  bookmaker_name ← get bookmaker "key";
  last_update ← get bookmaker "last_update";
  markets ← collection bookmaker "markets";
  for_each markets
    (market_body event_id sport commence_time bookmaker_name last_update)
    normalized_rows.

(** Body of [for event in snapshot.get("events", [])].  The name [sport]
    assigned here is local to the function: the module-level [sport] is
    neither read nor written. *)
Definition event_body (event : value) (normalized_rows : list NRow.t)
  : result (list NRow.t) :=
  event_id ← get event "id";
  sport ← get event "sport_key";
  commence_time ← get event "commence_time";
  home_team ← get event "home_team";
  away_team ← get event "away_team";
  bookmakers ← collection event "bookmakers";
  for_each bookmakers (bookmaker_body event_id sport commence_time)
    normalized_rows.

(** [normalize_snapshot_file] after [json.load]. *)
Definition normalize_snapshot (snapshot : value) : result (list NRow.t) :=
  let normalized_rows := [] in
  events ← collection snapshot "events";
  for_each events event_body normalized_rows.

(** ** Files *)

Record world : Type := World {
  (** [os.makedirs(path, exist_ok=True)] *)
  makedirs : string → result unit;
  (** [os.listdir(path)] *)
  listdir : string → result (list string);
  (** [open(path, "r")] followed by [json.load]: the document, [OSError]
      when the file cannot be opened, [JSONDecodeError] when it is not
      JSON. *)
  load : string → result value;
  (** whether [open(path, "w")] and the writes that follow succeed *)
  writable : string → bool
}.

Definition normalize_snapshot_file (w : world) (filename : string)
  : result (list NRow.t) :=
  snapshot ← load w (path_join SNAPSHOT_FOLDER filename);
  normalize_snapshot snapshot.

(** What a run leaves behind. *)
Inductive effect : Type :=
| MakeDirs (path : string)
| WriteJson (path : string) (rows : list NRow.t)
| WriteCsv (path : string) (fieldnames : list string) (rows : list NRow.t).

(** A computation with effects: the effects performed so far are kept when
    an exception is raised. *)
Record io (A : Type) : Type := IO {
  trace : list effect;
  returned : result A
}.
Arguments IO {A} trace returned.
Arguments trace {A} _.
Arguments returned {A} _.

#[global] Instance io_ret : MRet io := λ A a, IO [] (Ok a).

#[global] Instance io_bind : MBind io := λ A B k m,
  match returned m with
  | Ok a => let m' := k a in IO (trace m ++ trace m') (returned m')
  | Raise e => IO (trace m) (Raise e)
  end.

(** A step without effect. *)
Definition lift {A : Type} (r : result A) : io A := IO [] r.

(** A step that leaves [e] behind when it succeeds. *)
Definition perform (r : result unit) (e : effect) : io unit :=
  match r with
  | Ok _ => IO [e] (Ok tt)
  | Raise x => IO [] (Raise x)
  end.

Definition write (w : world) (path : string) (e : effect) : io unit :=
  perform (if writable w path then Ok tt else Raise OSError) e.

Fixpoint for_each_io {A : Type} (xs : list A) (body : A → io unit) : io unit :=
  match xs with
  | [] => mret tt
  | x :: xs' => _ ← body x; for_each_io xs' body
  end.

(** Body of [for filename in os.listdir(SNAPSHOT_FOLDER)]. *)
Definition file_body (w : world) (filename : string) : io unit :=
  if negb (endswith filename ".json") then mret tt
  else
    normalized_rows ← lift (normalize_snapshot_file w filename);
    let json_file := path_join NORMALIZED_FOLDER filename in
    _ ← write w json_file (WriteJson json_file normalized_rows);
    let csv_file := replace json_file ".json" ".csv" in
    match normalized_rows with
    | _ :: _ => write w csv_file (WriteCsv csv_file NRow.keys normalized_rows)
    | [] => mret tt
    end.

Definition normalize_all_snapshots (w : world) : io unit :=
  _ ← perform (makedirs w NORMALIZED_FOLDER) (MakeDirs NORMALIZED_FOLDER);
  filenames ← lift (listdir w SNAPSHOT_FOLDER);
  for_each_io filenames (file_body w).

(** ** Snapshot/API-Sports/snapshot_apisports_v1_1.py: two helpers *)

(** [bool(v)], the test behind [if v], [x or y] and [x and y]. *)
Definition truthy (v : value) : bool :=
  match v with
  | VNone => false
  | VBool b => b
  | VInt z => negb (z =? 0)%Z
  | VFloat q => negb (Qeq_bool q 0)
  | VStr s => negb (String.eqb s "")
  | VList l => match l with [] => false | _ :: _ => true end
  | VDict d => match map_to_list d with [] => false | _ :: _ => true end
  end.


(** ["injuries" not in coverage]; only a dict gets as far as this test,
    [coverage.get] having raised for anything else. *)
Definition not_in (key : string) (v : value) : result bool :=
  match v with
  | VDict d => Ok (match d !! key with None => true | Some _ => false end)
  | _ => Raise TypeError
  end.

Definition coverage_to_categories (coverage : value) : result (list string) :=
  let categories := [] in
  games ← get_default coverage "games" (VDict ∅);
  let categories :=
    if truthy games then categories ++ ["fixtures"] ++ ["results"]
    else categories in
  injuries ← get_default coverage "injuries" (VBool false);
  categories ←
    (if truthy injuries then Ok (categories ++ ["injuries"])
     else
       players ← get_default coverage "players" (VBool false);
       if truthy players
       then
         not_in "injuries" coverage ≫= λ absent : bool,
           if absent then Ok (categories ++ ["injuries"]) else Ok categories
       else Ok categories);
  odds ← get_default coverage "odds" (VBool false);
  let categories :=
    if truthy odds then categories ++ ["odds"] else categories in
  statistics ← get games "statistics";
  stats ←
    (if truthy statistics then Ok statistics
     else
       statisitcs ← get games "statisitcs";
       if truthy statisitcs then Ok statisitcs else Ok (VDict ∅));
  stats_players ← get_default stats "players" (VBool false);
  let categories :=
    if truthy stats_players then categories ++ ["lineups"] else categories in
  standings ← get_default coverage "standings" (VBool false);
  let categories :=
    if truthy standings then categories ++ ["standings"] else categories in
  players ← get_default coverage "players" (VBool false);
  let categories :=
    if truthy players then categories ++ ["players"] else categories in
  Ok categories.

(** [l] when [b] holds, nothing otherwise. *)
Definition seg (b : bool) (l : list string) : list string :=
  if b then l else [].

(** The categories in the order [coverage_to_categories] appends them. *)
Definition category_order : list string :=
  ["fixtures"; "results"; "injuries"; "odds"; "lineups"; "standings";
   "players"].

(** The value of [games.get("statistics") or games.get("statisitcs") or {}]
    when [games] is the dict [g]. *)
Definition games_stats (g : gmap string value) : value :=
  let s1 := default VNone (g !! "statistics") in
  let s2 := default VNone (g !! "statisitcs") in
  if truthy s1 then s1 else if truthy s2 then s2 else VDict ∅.

(** The test of the [if]/[elif] on injuries, for the coverage dict [d]. *)
Definition injuries_flag (d : gmap string value) : bool :=
  truthy (default (VBool false) (d !! "injuries"))
  || truthy (default (VBool false) (d !! "players"))
     && match d !! "injuries" with None => true | Some _ => false end.

(** The list built from the coverage dict [d], its games [g] and the
    statistics [sd] chosen in them. *)
Definition categories_of (d g sd : gmap string value) : list string :=
  seg (truthy (VDict g)) ["fixtures"; "results"]
  ++ seg (injuries_flag d) ["injuries"]
  ++ seg (truthy (default (VBool false) (d !! "odds"))) ["odds"]
  ++ seg (truthy (default (VBool false) (sd !! "players"))) ["lineups"]
  ++ seg (truthy (default (VBool false) (d !! "standings"))) ["standings"]
  ++ seg (truthy (default (VBool false) (d !! "players"))) ["players"].

(** ** Snapshots to run the module on *)

Definition mk_outcome (name : string) (price : Z) : value :=
  VDict {[ "name" := VStr name; "price" := VInt price ]}.

Definition mk_market (key : string) (outcomes : list value) : value :=
  VDict {[ "key" := VStr key; "outcomes" := VList outcomes ]}.

Definition mk_bookmaker (key last_update : string) (markets : list value)
  : value :=
  VDict {[ "key" := VStr key; "last_update" := VStr last_update;
           "markets" := VList markets ]}.

Definition mk_event (id sport_key commence_time home_team away_team : string)
    (bookmakers : list value) : value :=
  VDict {[ "id" := VStr id; "sport_key" := VStr sport_key;
           "commence_time" := VStr commence_time;
           "home_team" := VStr home_team; "away_team" := VStr away_team;
           "bookmakers" := VList bookmakers ]}.

Definition mk_snapshot (events : list value) : value :=
  VDict {[ "events" := VList events ]}.

Definition rows_of (r : result (list NRow.t)) : list NRow.t :=
  match r with
  | Ok rows => rows
  | Raise _ => []
  end.

(** Two events of different sports in one snapshot. *)
Definition two_sports : value :=
  mk_snapshot
    [ mk_event "e1" "soccer_epl" "2024-01-01T12:00:00Z" "H1" "A1"
        [ mk_bookmaker "bk1" "2024-01-01T00:00:00Z"
            [ mk_market "h2h" [ mk_outcome "H1" 150; mk_outcome "A1" (-200) ] ] ];
      mk_event "e2" "icehockey_nhl" "2024-01-02T12:00:00Z" "H2" "A2"
        [ mk_bookmaker "bk2" "2024-01-02T00:00:00Z"
            [ mk_market "h2h" [ mk_outcome "H2" (-110) ] ] ] ].

Definition two_sports_rows : list NRow.t :=
  Eval vm_compute in rows_of (normalize_snapshot two_sports).

(** [outcome] is one of the outcomes the loops of [normalize_snapshot] reach
    in [snapshot]. *)
Definition has_outcome (snapshot outcome : value) : Prop :=
  ∃ events event bookmakers bookmaker markets market outcomes,
    collection snapshot "events" = Ok events ∧ event ∈ events ∧
    collection event "bookmakers" = Ok bookmakers ∧ bookmaker ∈ bookmakers ∧
    collection bookmaker "markets" = Ok markets ∧ market ∈ markets ∧
    collection market "outcomes" = Ok outcomes ∧ outcome ∈ outcomes.

(** One market, one of whose two prices is 0. *)
Definition zero_price : value :=
  mk_snapshot
    [ mk_event "e1" "soccer_epl" "2024-01-01T12:00:00Z" "H1" "A1"
        [ mk_bookmaker "bk1" "2024-01-01T00:00:00Z"
            [ mk_market "h2h" [ mk_outcome "H1" 150; mk_outcome "A1" 0 ] ] ] ].

(** One market, one of whose two outcomes has no price. *)
Definition missing_price : value :=
  mk_snapshot
    [ mk_event "e1" "soccer_epl" "2024-01-01T12:00:00Z" "H1" "A1"
        [ mk_bookmaker "bk1" "2024-01-01T00:00:00Z"
            [ mk_market "h2h"
                [ mk_outcome "H1" 150; VDict {[ "name" := VStr "A1" ]} ] ] ] ].

(** A snapshot folder with the files [a.json] and [b.json]: [a] is what
    [json.load] gives for [a.json], [b.json] holds [two_sports], and every
    file can be written. *)
Definition two_files (a : result value) : world := {|
  makedirs := λ _, Ok tt;
  listdir := λ _, Ok ["a.json"; "b.json"];
  load := λ path, if String.eqb path "snapshots/a.json" then a
                  else Ok two_sports;
  writable := λ _, true
|}.


(** The market of the specification's example: +150 against -200. *)
Definition two_way : value :=
  mk_market "h2h" [ mk_outcome "H1" 150; mk_outcome "A1" (-200) ].

Definition two_way_rows : list NRow.t :=
  Eval vm_compute in
    rows_of (market_body (VStr "e1") (VStr "soccer_epl") VNone (VStr "bk1")
               VNone two_way []).





(** ** What a snapshot must look like to be flattened *)













(** ** What a run is meant to leave behind *)




(** A loop body that only appends to the rows it is given. *)
Definition appends {A R : Type} (body : A → list R → result (list R)) : Prop :=
  ∀ x acc, body x acc = (rows ← body x []; Ok (acc ++ rows)).

(** Membership in a list that is written out. *)
Ltac pick :=
  first [ apply list_elem_of_here | apply list_elem_of_further; pick ].


(** [has_outcome] for a snapshot and an outcome that are written out. *)
Ltac reach :=
  unfold has_outcome; do 7 eexists;
  repeat match goal with
         | |- _ ∧ _ => split
         | |- _ = Ok _ => reflexivity
         | |- _ ∈ _ => pick
         end.

(** * Properties *)

(** ** The error monad and the loops *)

Lemma raises_bind {A B : Type} (m : result A) (k : A → result B) :
  (∀ a, m = Ok a → raises (k a)) → raises (m ≫= k).
Proof. destruct m as [a|e]; simpl; [|done]. intros H. by apply H. Qed.

Lemma raises_bind_l {A B : Type} (m : result A) (k : A → result B) :
  raises m → raises (m ≫= k).
Proof. by destruct m. Qed.

Lemma for_each_app {A S : Type} (xs ys : list A) (body : A → S → result S)
    (s : S) :
  for_each (xs ++ ys) body s = (s' ← for_each xs body s; for_each ys body s').
Proof.
  revert s. induction xs as [|x xs IH]; intros s; simpl; [done|].
  destruct (body x s) as [s'|e]; simpl; [apply IH|done].
Qed.

(** An iteration that leaves the state as it is can be left out. *)
Lemma for_each_skip {A S : Type} (pre post : list A) (x : A)
    (body : A → S → result S) (s : S) :
  (∀ s', body x s' = Ok s') →
  for_each (pre ++ x :: post) body s = for_each (pre ++ post) body s.
Proof.
  intros Hx. rewrite !for_each_app. simpl.
  destruct (for_each pre body s) as [s'|e]; simpl; [|done].
  by rewrite Hx.
Qed.

(** An iteration that raises, whatever the state, makes the loop raise. *)
Lemma for_each_raises {A S : Type} (xs : list A) (x : A)
    (body : A → S → result S) (s : S) :
  x ∈ xs → (∀ s', raises (body x s')) → raises (for_each xs body s).
Proof.
  intros Hin Hx. revert s.
  induction xs as [|y xs IH]; intros s; [by apply elem_of_nil in Hin|].
  simpl. apply elem_of_cons in Hin as [<-|Hin].
  - specialize (Hx s). by destruct (body x s).
  - destruct (body y s) as [s'|e]; simpl; [by apply IH|done].
Qed.

Lemma comprehension_raises {A B : Type} (f : A → result B) (xs : list A)
    (x : A) :
  x ∈ xs → raises (f x) → raises (comprehension f xs).
Proof.
  intros Hin Hx.
  induction xs as [|y xs IH]; [by apply elem_of_nil in Hin|].
  simpl. apply elem_of_cons in Hin as [<-|Hin].
  - by destruct (f x).
  - destruct (f y) as [b|e]; simpl; [|done].
    specialize (IH Hin). by destruct (comprehension f xs).
Qed.


Lemma for_each_appends {A R : Type} (body : A → list R → result (list R))
    (xs : list A) (acc : list R) :
  appends body →
  for_each xs body acc = (rows ← for_each xs body []; Ok (acc ++ rows)).
Proof.
  intros Hb. revert acc. induction xs as [|x xs IH]; intros acc; simpl.
  - by rewrite app_nil_r.
  - rewrite (Hb x acc).
    destruct (body x []) as [rows|e]; simpl; [|done].
    rewrite (IH (acc ++ rows)), (IH rows).
    destruct (for_each xs body []) as [rows'|e]; simpl; [|done].
    by rewrite app_assoc.
Qed.

(** The rows of a loop are the rows of its iterations, in order. *)
Lemma for_each_concat {A R : Type} (body : A → list R → result (list R))
    (xs : list A) (rows : list R) :
  appends body →
  for_each xs body [] = Ok rows →
  ∃ rowss, rows = concat rowss ∧
           Forall2 (λ x rs, body x [] = Ok rs) xs rowss.
Proof.
  intros Hb. revert rows. induction xs as [|x xs IH]; intros rows; simpl.
  - intros [= <-]. by exists [].
  - destruct (body x []) as [rs|e] eqn:Hx; simpl; [|done].
    rewrite for_each_appends by done.
    destruct (for_each xs body []) as [rows'|e] eqn:Hxs; simpl; [|done].
    intros [= <-]. destruct (IH rows' eq_refl) as (rowss & -> & HF).
    exists (rs :: rowss). split; [done|]. by constructor.
Qed.

(** ** Arithmetic *)







(** ** The converter *)



(** ** The flattener *)

Lemma for_each_Forall {A R : Type} (P : R → Prop)
    (body : A → list R → result (list R)) (xs : list A) (acc acc' : list R) :
  (∀ x a a', Forall P a → body x a = Ok a' → Forall P a') →
  Forall P acc → for_each xs body acc = Ok acc' → Forall P acc'.
Proof.
  intros Hb. revert acc. induction xs as [|x xs IH]; intros acc Hacc; simpl.
  - by intros [= <-].
  - destruct (body x acc) as [a|e] eqn:Hx; simpl; [|done].
    apply IH. by apply (Hb x acc).
Qed.

Lemma outcome_body_appends
    (event_id sport commence_time bookmaker_name last_update market_key : value)
    (ds ps fs : list Q) :
  appends (outcome_body event_id sport commence_time bookmaker_name
             last_update market_key ds ps fs).
Proof.
  intros [idx o] acc. unfold outcome_body.
  destruct (get o "name"); simpl; [|done].
  destruct (get o "price"); simpl; [|done].
  destruct (index ds idx); simpl; [|done].
  destruct (index ps idx); simpl; [|done].
  by destruct (index fs idx).
Qed.

Lemma market_body_appends
    (event_id sport commence_time bookmaker_name last_update : value) :
  appends (market_body event_id sport commence_time bookmaker_name
             last_update).
Proof.
  intros m acc. unfold market_body.
  destruct (get m "key"); simpl; [|done].
  destruct (collection m "outcomes"); simpl; [|done].
  destruct (comprehension _ _); simpl; [|done].
  destruct (comprehension _ _); simpl; [|done].
  destruct (remove_vig _); simpl; [|done].
  apply for_each_appends, outcome_body_appends.
Qed.

Lemma bookmaker_body_appends (event_id sport commence_time : value) :
  appends (bookmaker_body event_id sport commence_time).
Proof.
  intros b acc. unfold bookmaker_body.
  destruct (get b "key"); simpl; [|done].
  destruct (get b "last_update"); simpl; [|done].
  destruct (collection b "markets"); simpl; [|done].
  apply for_each_appends, market_body_appends.
Qed.

Lemma event_body_appends : appends event_body.
Proof.
  intros e acc. unfold event_body.
  destruct (get e "id"); simpl; [|done].
  destruct (get e "sport_key"); simpl; [|done].
  destruct (get e "commence_time"); simpl; [|done].
  destruct (get e "home_team"); simpl; [|done].
  destruct (get e "away_team"); simpl; [|done].
  destruct (collection e "bookmakers"); simpl; [|done].
  apply for_each_appends, bookmaker_body_appends.
Qed.

(** Every row added under an event carries the [sport] read from it. *)
Lemma outcome_body_sport
    (event_id sport commence_time bookmaker_name last_update market_key : value)
    (ds ps fs : list Q) (item : nat * value) (acc acc' : list NRow.t) :
  Forall (λ r, NRow.sport r = sport) acc →
  outcome_body event_id sport commence_time bookmaker_name last_update
    market_key ds ps fs item acc = Ok acc' →
  Forall (λ r, NRow.sport r = sport) acc'.
Proof.
  intros Hacc. destruct item as [idx o]. unfold outcome_body.
  destruct (get o "name"); simpl; [|done].
  destruct (get o "price"); simpl; [|done].
  destruct (index ds idx); simpl; [|done].
  destruct (index ps idx); simpl; [|done].
  destruct (index fs idx); simpl; [|done].
  intros [= <-]. apply Forall_app. split; [done|]. by repeat constructor.
Qed.

Lemma market_body_sport
    (event_id sport commence_time bookmaker_name last_update : value)
    (m : value) (acc acc' : list NRow.t) :
  Forall (λ r, NRow.sport r = sport) acc →
  market_body event_id sport commence_time bookmaker_name last_update m acc
    = Ok acc' →
  Forall (λ r, NRow.sport r = sport) acc'.
Proof.
  intros Hacc. unfold market_body.
  destruct (get m "key"); simpl; [|done].
  destruct (collection m "outcomes"); simpl; [|done].
  destruct (comprehension _ _); simpl; [|done].
  destruct (comprehension _ _); simpl; [|done].
  destruct (remove_vig _); simpl; [|done].
  apply for_each_Forall; [|done].
  intros x a' a''. apply outcome_body_sport.
Qed.

Lemma bookmaker_body_sport (event_id sport commence_time : value)
    (b : value) (acc acc' : list NRow.t) :
  Forall (λ r, NRow.sport r = sport) acc →
  bookmaker_body event_id sport commence_time b acc = Ok acc' →
  Forall (λ r, NRow.sport r = sport) acc'.
Proof.
  intros Hacc. unfold bookmaker_body.
  destruct (get b "key"); simpl; [|done].
  destruct (get b "last_update"); simpl; [|done].
  destruct (collection b "markets"); simpl; [|done].
  apply for_each_Forall; [|done].
  intros x a' a''. apply market_body_sport.
Qed.

Lemma event_body_sport (event : value) (rows : list NRow.t) :
  event_body event [] = Ok rows →
  ∃ sport_key, get event "sport_key" = Ok sport_key ∧
               Forall (λ r, NRow.sport r = sport_key) rows.
Proof.
  unfold event_body.
  destruct (get event "id"); simpl; [|done].
  destruct (get event "sport_key") as [sport_key|]; simpl; [|done].
  destruct (get event "commence_time"); simpl; [|done].
  destruct (get event "home_team"); simpl; [|done].
  destruct (get event "away_team"); simpl; [|done].
  destruct (collection event "bookmakers"); simpl; [|done].
  intros H. exists sport_key. split; [done|].
  revert H. apply for_each_Forall; [|done].
  intros x a' a''. apply bookmaker_body_sport.
Qed.

(** C9. The rows returned for a snapshot are those of its events, in order,
    and every row flattened from an event has as [sport] what
    [event.get("sport_key")] gives for that event; so it is the module-level
    [sport] only when the event says so. *)
Theorem sport_is_event_sport_key (snapshot : value) (rows : list NRow.t) :
  normalize_snapshot snapshot = Ok rows →
  ∃ (events : list value) (rowss : list (list NRow.t)),
    collection snapshot "events" = Ok events ∧
    rows = concat rowss ∧
    Forall2
      (λ event rs,
         event_body event [] = Ok rs ∧
         ∃ sport_key,
           get event "sport_key" = Ok sport_key ∧
           Forall (λ r, NRow.sport r = sport_key ∧
                        (sport_key ≠ VStr sport → NRow.sport r ≠ VStr sport))
                  rs)
      events rowss.
Proof.
  unfold normalize_snapshot.
  destruct (collection snapshot "events") as [events|] eqn:He; simpl; [|done].
  intros H. apply for_each_concat in H as (rowss & -> & HF);
    [|apply event_body_appends].
  exists events, rowss. split; [done|]. split; [done|].
  eapply Forall2_impl; [exact HF|].
  intros event rs Hrs. split; [done|].
  destruct (event_body_sport _ _ Hrs) as (sport_key & Hk & Hall).
  exists sport_key. split; [done|].
  eapply Forall_impl; [exact Hall|].
  intros r ->. done.
Qed.

Lemma sport_is_event_sport_key_witness :
  normalize_snapshot two_sports = Ok two_sports_rows ∧
  ∃ (events : list value) (rowss : list (list NRow.t)),
    collection two_sports "events" = Ok events ∧
    two_sports_rows = concat rowss ∧
    Forall2
      (λ event rs,
         event_body event [] = Ok rs ∧
         ∃ sport_key,
           get event "sport_key" = Ok sport_key ∧
           Forall (λ r, NRow.sport r = sport_key ∧
                        (sport_key ≠ VStr sport → NRow.sport r ≠ VStr sport))
                  rs)
      events rowss.
Proof.
  split; [vm_compute; reflexivity|].
  apply (sport_is_event_sport_key two_sports two_sports_rows).
  vm_compute. reflexivity.
Defined.

(** The sports of the rows of [two_sports], in order. *)
Example two_sports_sport :
  NRow.sport <$> two_sports_rows
  = [VStr "soccer_epl"; VStr "soccer_epl"; VStr "icehockey_nhl"].
Proof. reflexivity. Qed.

(** ** Missing and empty collections *)

Lemma collection_missing (d : gmap string value) (key : string) :
  d !! key = None → collection (VDict d) key = Ok [].
Proof. intros H. unfold collection. simpl. by rewrite H. Qed.

Lemma collection_list (d : gmap string value) (key : string)
    (l : list value) :
  d !! key = Some (VList l) → collection (VDict d) key = Ok l.
Proof. intros H. unfold collection. simpl. by rewrite H. Qed.

Lemma market_body_no_outcomes
    (event_id sport commence_time bookmaker_name last_update : value)
    (d : gmap string value) (acc : list NRow.t) :
  collection (VDict d) "outcomes" = Ok [] →
  market_body event_id sport commence_time bookmaker_name last_update
    (VDict d) acc = Ok acc.
Proof. intros H. unfold market_body. rewrite H. reflexivity. Qed.

Lemma event_body_no_bookmakers (d : gmap string value) (acc : list NRow.t) :
  collection (VDict d) "bookmakers" = Ok [] → event_body (VDict d) acc = Ok acc.
Proof. intros H. unfold event_body. by rewrite H. Qed.


(** The other events of a snapshot are flattened as if the event without
    bookmakers were not there. *)
Lemma event_without_bookmakers_skipped (d : gmap string value)
    (pre post : list value) (acc : list NRow.t) :
  d !! "bookmakers" = None →
  for_each (pre ++ VDict d :: post) event_body acc
  = for_each (pre ++ post) event_body acc.
Proof.
  intros H. apply for_each_skip. intros acc'.
  by apply event_body_no_bookmakers, collection_missing.
Qed.




Lemma remove_vig_nil : remove_vig [] = Ok [].
Proof. reflexivity. Qed.

(** C7. [remove_vig] of the empty list is the empty list, without a
    division; a market whose list of outcomes is empty leaves the rows as
    they are and raises nothing, so the markets around it are flattened as
    if it were not there. *)
Theorem empty_market_emits_nothing
    (event_id sport commence_time bookmaker_name last_update : value)
    (d : gmap string value) :
  d !! "outcomes" = Some (VList []) →
  remove_vig [] = Ok [] ∧
  (∀ acc,
     market_body event_id sport commence_time bookmaker_name last_update
       (VDict d) acc = Ok acc) ∧
  (∀ pre post acc,
     for_each (pre ++ VDict d :: post)
       (market_body event_id sport commence_time bookmaker_name last_update)
       acc
     = for_each (pre ++ post)
         (market_body event_id sport commence_time bookmaker_name last_update)
         acc).
Proof.
  intros H.
  assert (Hm : ∀ acc,
    market_body event_id sport commence_time bookmaker_name last_update
      (VDict d) acc = Ok acc).
  { intros acc. by apply market_body_no_outcomes, collection_list. }
  split; [apply remove_vig_nil|]. split; [exact Hm|].
  intros pre post acc. by apply for_each_skip.
Qed.

Lemma empty_market_emits_nothing_witness :
  market_body (VStr "e1") (VStr "soccer_epl") VNone (VStr "bk1") VNone
    (mk_market "h2h" []) [] = Ok [].
Proof.
  destruct (empty_market_emits_nothing (VStr "e1") (VStr "soccer_epl") VNone
              (VStr "bk1") VNone
              {[ "key" := VStr "h2h"; "outcomes" := VList [] ]})
    as (_ & H & _); [reflexivity|].
  apply (H []).
Defined.

(** ** Prices that cannot be converted *)

Lemma american_to_decimal_0 :
  american_to_decimal (VInt 0) = Raise ZeroDivisionError.
Proof. reflexivity. Qed.

Lemma american_to_decimal_None : american_to_decimal VNone = Raise TypeError.
Proof. reflexivity. Qed.

(** One outcome whose price cannot be converted makes the whole snapshot
    raise: nothing in the loops catches the exception. *)
Lemma unconvertible_price_raises (snapshot outcome : value) :
  has_outcome snapshot outcome →
  raises (price ← get outcome "price"; american_to_decimal price) →
  raises (normalize_snapshot snapshot).
Proof.
  intros (events & event & bookmakers & bookmaker & markets & market
          & outcomes & Hes & He & Hbs & Hb & Hms & Hm & Hos & Ho) Hprice.
  unfold normalize_snapshot. rewrite Hes. simpl.
  apply for_each_raises with event; [done|]. intros acc.
  unfold event_body. do 5 (apply raises_bind; intros ? _).
  rewrite Hbs. simpl.
  apply for_each_raises with bookmaker; [done|]. intros acc'.
  unfold bookmaker_body. do 2 (apply raises_bind; intros ? _).
  rewrite Hms. simpl.
  apply for_each_raises with market; [done|]. intros acc''.
  unfold market_body. apply raises_bind; intros ? _.
  rewrite Hos. simpl.
  apply raises_bind_l. by apply comprehension_raises with outcome.
Qed.

Lemma file_body_raise (w : world) (filename : string) (e : exn) :
  endswith filename ".json" = true →
  normalize_snapshot_file w filename = Raise e →
  file_body w filename = IO [] (Raise e).
Proof. intros Hj Hn. unfold file_body. by rewrite Hj, Hn. Qed.

Lemma unconvertible_price_aborts_file (w : world) (filename : string)
    (snapshot outcome : value) :
  load w (path_join SNAPSHOT_FOLDER filename) = Ok snapshot →
  has_outcome snapshot outcome →
  raises (price ← get outcome "price"; american_to_decimal price) →
  raises (normalize_snapshot_file w filename) ∧
  (endswith filename ".json" = true →
     trace (file_body w filename) = [] ∧
     raises (returned (file_body w filename))).
Proof.
  intros Hload Hin Hprice.
  assert (Hr : raises (normalize_snapshot_file w filename)).
  { unfold normalize_snapshot_file. rewrite Hload. simpl.
    by apply unconvertible_price_raises with outcome. }
  split; [done|]. intros Hj.
  destruct (normalize_snapshot_file w filename) as [|e] eqn:E; [done|].
  by rewrite (file_body_raise w filename e).
Qed.

(** C2, as the code has it.  For the price 0 the converter does divide by
    zero and raises [ZeroDivisionError]; the exception is not caught, so a
    file with such an outcome raises as a whole: no row of it is returned
    and no file is written for it. *)
Theorem zero_price_aborts_file (w : world) (filename : string)
    (snapshot outcome : value) :
  load w (path_join SNAPSHOT_FOLDER filename) = Ok snapshot →
  has_outcome snapshot outcome →
  get outcome "price" = Ok (VInt 0) →
  american_to_decimal (VInt 0) = Raise ZeroDivisionError ∧
  raises (normalize_snapshot_file w filename) ∧
  (endswith filename ".json" = true →
     trace (file_body w filename) = [] ∧
     raises (returned (file_body w filename))).
Proof.
  intros Hload Hin Hprice. split; [apply american_to_decimal_0|].
  apply unconvertible_price_aborts_file with snapshot outcome; [done..|].
  by rewrite Hprice.
Qed.

(** C4, as the code has it.  For an outcome without ["price"],
    [outcome.get("price")] is [None] and the converter raises [TypeError] on
    [None > 0]; the exception is not caught, so a file with such an outcome
    raises as a whole: no row of it is returned and no file is written for
    it. *)
Theorem missing_price_aborts_file (w : world) (filename : string)
    (snapshot : value) (outcome : gmap string value) :
  load w (path_join SNAPSHOT_FOLDER filename) = Ok snapshot →
  has_outcome snapshot (VDict outcome) →
  outcome !! "price" = None →
  get (VDict outcome) "price" = Ok VNone ∧
  american_to_decimal VNone = Raise TypeError ∧
  raises (normalize_snapshot_file w filename) ∧
  (endswith filename ".json" = true →
     trace (file_body w filename) = [] ∧
     raises (returned (file_body w filename))).
Proof.
  intros Hload Hin Hprice.
  assert (Hget : get (VDict outcome) "price" = Ok VNone).
  { unfold get. simpl. by rewrite Hprice. }
  split; [done|]. split; [apply american_to_decimal_None|].
  apply unconvertible_price_aborts_file with snapshot (VDict outcome);
    [done..|].
  by rewrite Hget.
Qed.

Lemma zero_price_aborts_file_witness :
  raises (normalize_snapshot_file (two_files (Ok zero_price)) "a.json") ∧
  trace (file_body (two_files (Ok zero_price)) "a.json") = [].
Proof.
  destruct (zero_price_aborts_file (two_files (Ok zero_price)) "a.json"
              zero_price (mk_outcome "A1" 0)) as (_ & Hr & Hf).
  - reflexivity.
  - reach.
  - reflexivity.
  - split; [exact Hr|]. apply Hf. reflexivity.
Defined.

(** A price of 0 next to a price of 150: the run raises
    [ZeroDivisionError], no row is returned for the outcome priced 150, and
    neither this file nor the next one is written. *)
Lemma zero_price_counterexample :
  has_outcome zero_price (mk_outcome "A1" 0) ∧
  get (mk_outcome "A1" 0) "price" = Ok (VInt 0) ∧
  normalize_snapshot zero_price = Raise ZeroDivisionError ∧
  (¬ ∃ rows, normalize_snapshot zero_price = Ok rows) ∧
  normalize_all_snapshots (two_files (Ok zero_price))
  = IO [MakeDirs "normalized"] (Raise ZeroDivisionError).
Proof.
  split; [reach|]. split; [reflexivity|].
  assert (H : normalize_snapshot zero_price = Raise ZeroDivisionError)
    by (vm_compute; reflexivity).
  split; [exact H|]. split.
  - intros [rows Hrows]. rewrite H in Hrows. discriminate.
  - vm_compute. reflexivity.
Qed.

Lemma missing_price_aborts_file_witness :
  raises (normalize_snapshot_file (two_files (Ok missing_price)) "a.json") ∧
  trace (file_body (two_files (Ok missing_price)) "a.json") = [].
Proof.
  destruct (missing_price_aborts_file (two_files (Ok missing_price)) "a.json"
              missing_price {[ "name" := VStr "A1" ]}) as (_ & _ & Hr & Hf).
  - reflexivity.
  - reach.
  - reflexivity.
  - split; [exact Hr|]. apply Hf. reflexivity.
Defined.

(** An outcome without a price next to one priced 150: the run raises
    [TypeError], no row is returned for the outcome priced 150, and neither
    this file nor the next one is written. *)
Lemma missing_price_counterexample :
  has_outcome missing_price (VDict {[ "name" := VStr "A1" ]}) ∧
  get (VDict {[ "name" := VStr "A1" ]}) "price" = Ok VNone ∧
  normalize_snapshot missing_price = Raise TypeError ∧
  (¬ ∃ rows, normalize_snapshot missing_price = Ok rows) ∧
  normalize_all_snapshots (two_files (Ok missing_price))
  = IO [MakeDirs "normalized"] (Raise TypeError).
Proof.
  split; [reach|]. split; [reflexivity|].
  assert (H : normalize_snapshot missing_price = Raise TypeError)
    by (vm_compute; reflexivity).
  split; [exact H|]. split.
  - intros [rows Hrows]. rewrite H in Hrows. discriminate.
  - vm_compute. reflexivity.
Qed.

(** ** The batch *)

Lemma file_body_other (w : world) (filename : string) :
  endswith filename ".json" = false → file_body w filename = IO [] (Ok tt).
Proof. intros Hj. unfold file_body. by rewrite Hj. Qed.


(** A snapshot that cannot be read, or is not JSON, makes the body of the
    loop raise before anything is written. *)
Lemma file_body_load_error (w : world) (filename : string) (e : exn) :
  endswith filename ".json" = true →
  load w (path_join SNAPSHOT_FOLDER filename) = Raise e →
  file_body w filename = IO [] (Raise e).
Proof.
  intros Hj Hload. apply file_body_raise; [done|].
  unfold normalize_snapshot_file. by rewrite Hload.
Qed.

(** So does a JSON file that cannot be written. *)
Lemma file_body_write_error (w : world) (filename : string)
    (rows : list NRow.t) :
  endswith filename ".json" = true →
  normalize_snapshot_file w filename = Ok rows →
  writable w (path_join NORMALIZED_FOLDER filename) = false →
  file_body w filename = IO [] (Raise OSError).
Proof.
  intros Hj Hn Hw. unfold file_body. rewrite Hj, Hn. simpl.
  unfold write. by rewrite Hw.
Qed.


Lemma for_each_io_completes {A : Type} (body : A → io unit) (xs : list A) :
  Forall (λ y, returned (body y) = Ok tt) xs →
  for_each_io xs body = IO (concat (trace ∘ body <$> xs)) (Ok tt).
Proof.
  induction 1 as [|y xs Hy _ IH]; simpl; [done|].
  unfold mbind, io_bind in *. by rewrite Hy, IH.
Qed.

Lemma normalize_all_snapshots_loop (w : world) (filenames : list string) :
  makedirs w NORMALIZED_FOLDER = Ok tt →
  listdir w SNAPSHOT_FOLDER = Ok filenames →
  normalize_all_snapshots w
  = IO (MakeDirs NORMALIZED_FOLDER
          :: trace (for_each_io filenames (file_body w)))
       (returned (for_each_io filenames (file_body w))).
Proof.
  intros Hm Hl. unfold normalize_all_snapshots. rewrite Hm, Hl. reflexivity.
Qed.

(** A batch all of whose files are processed without an exception. *)
Lemma normalize_all_snapshots_completes (w : world)
    (filenames : list string) :
  makedirs w NORMALIZED_FOLDER = Ok tt →
  listdir w SNAPSHOT_FOLDER = Ok filenames →
  Forall (λ f, returned (file_body w f) = Ok tt) filenames →
  normalize_all_snapshots w
  = IO (MakeDirs NORMALIZED_FOLDER
          :: concat (trace ∘ file_body w <$> filenames))
       (Ok tt).
Proof.
  intros Hm Hl Hok. rewrite (normalize_all_snapshots_loop w _ Hm Hl).
  by rewrite (for_each_io_completes (file_body w) filenames Hok).
Qed.

(** In such a batch, what the body of the loop does for a file is part of
    what the run does. *)
Lemma normalize_all_snapshots_keeps (w : world) (filenames : list string)
    (filename : string) (e : effect) :
  makedirs w NORMALIZED_FOLDER = Ok tt →
  listdir w SNAPSHOT_FOLDER = Ok filenames →
  Forall (λ f, returned (file_body w f) = Ok tt) filenames →
  filename ∈ filenames →
  e ∈ trace (file_body w filename) →
  e ∈ trace (normalize_all_snapshots w).
Proof.
  intros Hm Hl Hok Hin He.
  rewrite (normalize_all_snapshots_completes w filenames Hm Hl Hok). simpl.
  apply list_elem_of_further, list_elem_of_In, in_concat.
  exists (trace (file_body w filename)). split.
  - apply list_elem_of_In, list_elem_of_fmap. by exists filename.
  - by apply list_elem_of_In.
Qed.




(** ** The files written for a snapshot *)




(** A run over a snapshot without events and [two_sports]. *)
Example run_two_files :
  normalize_all_snapshots (two_files (Ok (mk_snapshot [])))
  = IO [ MakeDirs "normalized";
         WriteJson "normalized/a.json" [];
         WriteJson "normalized/b.json" two_sports_rows;
         WriteCsv "normalized/b.csv" NRow.keys two_sports_rows ]
       (Ok tt).
Proof. vm_compute. reflexivity. Qed.

(** ** Sums and rounding *)











(** ** The three lists of a market *)








(** ** Fair probabilities *)







(** The rows of [two_way]: decimal odds 2.5 and 1.5, implied probabilities
    0.4 and 0.6667, fair probabilities 0.375 and 0.625. *)
Example two_way_example :
  market_body (VStr "e1") (VStr "soccer_epl") VNone (VStr "bk1") VNone
    two_way [] = Ok two_way_rows ∧
  NRow.decimal_odds <$> two_way_rows = [25000 # 10000; 15000 # 10000]%Q ∧
  NRow.implied_probability <$> two_way_rows
  = [4000 # 10000; 6667 # 10000]%Q ∧
  NRow.fair_probability <$> two_way_rows = [3750 # 10000; 6250 # 10000]%Q.
Proof.
  split; [vm_compute; reflexivity|]. repeat split; reflexivity.
Qed.

(** * Further properties *)

(** ** The converter on any value *)













(** ** Implied probabilities of American odds *)






(** ** [remove_vig] on any list *)


















(** ** The rows of a market, read back *)






(** ** When flattening succeeds *)










(** ** Rows and the outcomes they come from *)













(** ** Rounded fields *)






(** ** Keys that are not read *)

Lemma get_insert_ne (d : gmap string value) (k key : string) (v : value) :
  k ≠ key → get (VDict (<[k:=v]> d)) key = get (VDict d) key.
Proof. intros Hne. unfold get. simpl. by rewrite lookup_insert_ne. Qed.




(** Two lists of outcomes that differ only in keys other than [name] and
    [price]. *)
Lemma comprehension_ext {A B : Type} (f : A → result B) (xs ys : list A) :
  Forall2 (λ x y, f x = f y) xs ys → comprehension f xs = comprehension f ys.
Proof.
  induction 1 as [|x y xs ys Hxy _ IH]; simpl; [done|]. by rewrite Hxy, IH.
Qed.

Lemma for_each_enumerate_ext {A S : Type} (body : nat * A → S → result S)
    (xs ys : list A) :
  Forall2 (λ x y, ∀ i s, body (i, x) s = body (i, y) s) xs ys →
  ∀ i s, for_each (enumerate_from i xs) body s
         = for_each (enumerate_from i ys) body s.
Proof.
  induction 1 as [|x y xs ys Hxy _ IH]; intros i s; simpl; [done|].
  rewrite Hxy. destruct (body (i, y) s); simpl; [apply IH|done].
Qed.

(** X15. The rows of a market do not depend on any key of its outcomes other
    than [name] and [price]: what else an outcome holds (the [point] of a
    spread or of a total, for one) reaches no row. *)
Theorem market_body_ignores_outcome_keys
    (event_id sport commence_time bookmaker_name last_update : value)
    (m : gmap string value) (outcomes outcomes' : list value)
    (acc : list NRow.t) :
  Forall2 (λ o o', ∃ (d : gmap string value) (k : string) (v : value),
                     o = VDict d ∧ o' = VDict (<[k:=v]> d) ∧
                     k ≠ "name" ∧ k ≠ "price")
          outcomes outcomes' →
  market_body event_id sport commence_time bookmaker_name last_update
    (VDict (<["outcomes":=VList outcomes']> m)) acc
  = market_body event_id sport commence_time bookmaker_name last_update
      (VDict (<["outcomes":=VList outcomes]> m)) acc.
Proof.
  intros HF. unfold market_body.
  rewrite !(get_insert_ne m "outcomes" "key") by done.
  rewrite !(collection_list _ "outcomes" _ (lookup_insert_eq _ _ _)).
  destruct (get (VDict m) "key") as [mk|]; simpl; [|done].
  assert (Hc : comprehension
                 (λ o, price ← get o "price"; american_to_decimal price)
                 outcomes'
               = comprehension
                   (λ o, price ← get o "price"; american_to_decimal price)
                   outcomes).
  { symmetry. apply comprehension_ext.
    eapply Forall2_impl; [exact HF|].
    intros o o' (d & k & v & -> & -> & _ & Hp).
    by rewrite (get_insert_ne d k "price"). }
  rewrite Hc.
  destruct (comprehension _ outcomes) as [ds|]; simpl; [|done].
  destruct (comprehension compute_implied_prob ds) as [ps|]; simpl; [|done].
  destruct (remove_vig ps) as [fs|]; simpl; [|done].
  symmetry. apply for_each_enumerate_ext.
  eapply Forall2_impl; [exact HF|].
  intros o o' (d & k & v & -> & -> & Hn & Hp) i s.
  unfold outcome_body.
  by rewrite (get_insert_ne d k "name"), (get_insert_ne d k "price").
Qed.

Lemma market_body_ignores_outcome_keys_witness :
  market_body (VStr "e1") VNone VNone VNone VNone
    (VDict (<["outcomes":=VList [VDict (<["point":=VFloat (-3.5)]>
                                          {[ "price" := VInt (-110) ]})]]> ∅))
    []
  = market_body (VStr "e1") VNone VNone VNone VNone
      (VDict (<["outcomes":=VList [VDict {[ "price" := VInt (-110) ]}]]> ∅))
      [].
Proof.
  apply (market_body_ignores_outcome_keys (VStr "e1") VNone VNone VNone VNone
           ∅ [VDict {[ "price" := VInt (-110) ]}]).
  repeat constructor.
  by exists {[ "price" := VInt (-110) ]}, "point", (VFloat (-3.5)).
Defined.

(** ** Snapshots put together *)



(** ** Every run *)




(** ** The paths written *)

Lemma string_app_nil (b : string) : "" +:+ b = b.
Proof. reflexivity. Qed.

Lemma string_app_cons (c : Ascii.ascii) (a b : string) :
  String c a +:+ b = String c (a +:+ b).
Proof. reflexivity. Qed.

Lemma string_app_assoc (a b c : string) : (a +:+ b) +:+ c = a +:+ (b +:+ c).
Proof.
  induction a as [|x a IH]; [done|]. by rewrite !string_app_cons, IH.
Qed.


Lemma substring_all (s : string) : String.substring 0 (String.length s) s = s.
Proof. induction s as [|x s IH]; simpl; [done|]. by rewrite IH. Qed.


Lemma substring_split (s : string) (k : nat) :
  (k <= String.length s)%nat →
  s = String.substring 0 k s +:+ String.substring k (String.length s - k) s.
Proof.
  revert k. induction s as [|x s IH]; intros [|k] Hk; simpl in *; try lia.
  - done.
  - by rewrite string_app_nil, substring_all.
  - rewrite string_app_cons, <- (IH k) by lia. done.
Qed.


Lemma endswith_inv (s suffix : string) :
  endswith s suffix = true → ∃ stem, s = stem +:+ suffix.
Proof.
  unfold endswith.
  destruct (String.length suffix <=? String.length s)%nat eqn:Hle; [|done].
  apply Nat.leb_le in Hle. intros Heq. apply String.eqb_eq in Heq.
  exists (String.substring 0 (String.length s - String.length suffix) s).
  pose proof (substring_split s (String.length s - String.length suffix))
    as Hs.
  replace (String.length s - (String.length s - String.length suffix))%nat
    with (String.length suffix) in Hs by lia.
  rewrite Heq in Hs. apply Hs. lia.
Qed.

Lemma list_ascii_app (a b : string) :
  String.list_ascii_of_string (a +:+ b)
  = String.list_ascii_of_string a ++ String.list_ascii_of_string b.
Proof.
  induction a as [|x a IH]; [done|]. rewrite string_app_cons. simpl.
  by rewrite IH.
Qed.

Lemma csv_is_not_json (a b : string) : a +:+ ".csv" ≠ b +:+ ".json".
Proof.
  intros H. apply (f_equal String.list_ascii_of_string) in H.
  rewrite !list_ascii_app in H. apply (f_equal last) in H.
  erewrite !last_app in H by reflexivity. discriminate.
Qed.

(** An occurrence of [.json] that starts in [s] lies in [s]: it cannot run
    into a [.json] that follows. *)
Lemma prefix_json_app (c : Ascii.ascii) (s : string) :
  String.prefix ".json" (String c (s +:+ ".json"))
  = String.prefix ".json" (String c s).
Proof.
  destruct s as [|c1 [|c2 [|c3 [|c4 s]]]];
    rewrite ?string_app_cons, ?string_app_nil; cbn [String.prefix];
    repeat match goal with
           | |- context [Ascii.ascii_dec ?a ?b] =>
               is_var b; destruct (Ascii.ascii_dec a b)
           end;
    try reflexivity.
  by destruct s.
Qed.

Lemma prefix_json_length (c : Ascii.ascii) (s : string) :
  String.prefix ".json" (String c s) = true → (4 <= String.length s)%nat.
Proof.
  destruct s as [|c1 [|c2 [|c3 [|c4 s]]]]; cbn [String.prefix];
    repeat match goal with
           | |- context [Ascii.ascii_dec ?a ?b] =>
               is_var b; destruct (Ascii.ascii_dec a b)
           end;
    try discriminate; simpl; lia.
Qed.

Lemma replace_from_app_json (s : string) :
  ∀ k : nat,
    (k <= String.length s)%nat →
    replace_from k (s +:+ ".json") ".json" ".csv"
    = replace_from k s ".json" ".csv" +:+ ".csv".
Proof.
  induction s as [|c s IH]; intros k Hk.
  - simpl in Hk. replace k with 0%nat by lia. reflexivity.
  - destruct k as [|k].
    + rewrite string_app_cons.
      cbn [replace_from]. rewrite prefix_json_app.
      destruct (String.prefix ".json" (String c s)) eqn:Hp.
      * apply prefix_json_length in Hp.
        change (String.length ".json" - 1)%nat with 4%nat.
        rewrite (IH 4%nat Hp). by rewrite string_app_assoc.
      * rewrite (IH 0%nat) by lia. by rewrite string_app_cons.
    + simpl in Hk. rewrite string_app_cons. cbn [replace_from].
      apply IH. lia.
Qed.

Lemma path_join_normalized (filename : string) :
  startswith filename "/" = false →
  path_join NORMALIZED_FOLDER filename = "normalized/" +:+ filename.
Proof. intros H. unfold path_join. rewrite H. reflexivity. Qed.

Lemma replace_normalized (s : string) :
  replace ("normalized/" +:+ s) ".json" ".csv"
  = "normalized/" +:+ replace s ".json" ".csv".
Proof. reflexivity. Qed.

(** X18. For a file name [stem.json] the JSON file written is
    [normalized/stem.json], and the CSV file is [normalized/] followed by
    [stem] with every [.json] in it replaced by [.csv], followed by [.csv]:
    its path never ends in [.json], so it is no JSON file of the run. *)
Theorem output_paths (filename : string) :
  endswith filename ".json" = true →
  startswith filename "/" = false →
  ∃ stem : string,
    filename = stem +:+ ".json" ∧
    path_join NORMALIZED_FOLDER filename = "normalized/" +:+ stem +:+ ".json" ∧
    replace (path_join NORMALIZED_FOLDER filename) ".json" ".csv"
    = "normalized/" +:+ replace stem ".json" ".csv" +:+ ".csv" ∧
    ∀ p : string,
      endswith p ".json" = true →
      replace (path_join NORMALIZED_FOLDER filename) ".json" ".csv" ≠ p.
Proof.
  intros Hj Hs. apply endswith_inv in Hj as [stem ->]. exists stem.
  rewrite (path_join_normalized _ Hs), replace_normalized.
  unfold replace. rewrite (replace_from_app_json stem 0) by lia.
  repeat split; try done.
  intros p Hp. apply endswith_inv in Hp as [stem' ->].
  rewrite <- string_app_assoc. apply csv_is_not_json.
Qed.

Lemma output_paths_witness :
  ∃ stem : string,
    "a.json.json" = stem +:+ ".json" ∧
    path_join NORMALIZED_FOLDER "a.json.json"
    = "normalized/" +:+ stem +:+ ".json" ∧
    replace (path_join NORMALIZED_FOLDER "a.json.json") ".json" ".csv"
    = "normalized/" +:+ replace stem ".json" ".csv" +:+ ".csv" ∧
    ∀ p : string,
      endswith p ".json" = true →
      replace (path_join NORMALIZED_FOLDER "a.json.json") ".json" ".csv" ≠ p.
Proof. apply (output_paths "a.json.json"); reflexivity. Defined.

(** A name with [.json] twice: both are replaced. *)
Example csv_path_of_double_json :
  replace (path_join NORMALIZED_FOLDER "a.json.json") ".json" ".csv"
  = "normalized/a.csv.csv".
Proof. reflexivity. Qed.

(** ** The exceptions of flattening *)











(** ** Fair against implied probabilities *)



(** ** What a run depends on *)





(** * snapshot_apisports_v1_1.py *)

(** ** Seasons *)


(** ** Coverage *)

Lemma truthy_dict_lookup (g : gmap string value) (key : string) (v : value) :
  g !! key = Some v → truthy (VDict g) = true.
Proof.
  intros H. simpl. destruct (map_to_list g) as [|kv l] eqn:E; [|done].
  apply map_to_list_empty_iff in E. subst g. by rewrite lookup_empty in H.
Qed.

Lemma truthy_default_lookup (g : gmap string value) (key : string) :
  truthy (default VNone (g !! key)) = true → truthy (VDict g) = true.
Proof.
  destruct (g !! key) as [v|] eqn:E; [|done]. intros _.
  by apply (truthy_dict_lookup g key v).
Qed.

(** What the function computes on a dict whose games are a dict. *)
Lemma coverage_to_categories_dict (d g : gmap string value) :
  default (VDict ∅) (d !! "games") = VDict g →
  coverage_to_categories (VDict d)
  = match games_stats g with
    | VDict sd => Ok (categories_of d g sd)
    | _ => Raise AttributeError
    end.
Proof.
  intros Eg. unfold coverage_to_categories, games_stats, categories_of,
    injuries_flag.
  cbn [get_default get not_in mbind result_bind]. rewrite Eg.
  cbn [get_default get mbind result_bind].
  set (s1 := default VNone (g !! "statistics")).
  set (s2 := default VNone (g !! "statisitcs")).
  destruct (d !! "injuries") as [inj|];
    cbn [from_option id];
    [destruct (truthy inj)|change (truthy (VBool false)) with false];
    destruct (truthy (default (VBool false) (d !! "players")));
    destruct (truthy (default (VBool false) (d !! "odds")));
    destruct (truthy (default (VBool false) (d !! "standings")));
    destruct (truthy (VDict g));
    cbn [mbind result_bind orb andb];
    (destruct (truthy s1);
     [destruct s1 as [| | | | | |sd]
     |destruct (truthy s2);
      [destruct s2 as [| | | | | |sd]|rewrite ?lookup_empty]]);
    cbn [get_default mbind result_bind from_option id]; try done;
    try rewrite lookup_empty; cbn [from_option id];
    try change (truthy (VBool false)) with false;
    try destruct (truthy (default (VBool false) (sd !! "players")));
    by cbn [seg app].
Qed.

(** What the function does when the games are not a dict. *)
Lemma coverage_to_categories_games (d : gmap string value) (v : value) :
  default (VDict ∅) (d !! "games") = v →
  (∀ g, v ≠ VDict g) →
  coverage_to_categories (VDict d) = Raise AttributeError.
Proof.
  intros Eg Hv. unfold coverage_to_categories.
  cbn [get_default get not_in mbind result_bind]. rewrite Eg.
  destruct v as [| | | | | |g]; [..|by destruct (Hv g)];
    cbn [get_default get mbind result_bind];
    (destruct (truthy (default (VBool false) (d !! "injuries")));
     [|destruct (truthy (default (VBool false) (d !! "players")));
       [destruct (d !! "injuries")|]]);
    by cbn [mbind result_bind].
Qed.

Lemma coverage_to_categories_inv (coverage : value) (cs : list string) :
  coverage_to_categories coverage = Ok cs →
  ∃ d g sd : gmap string value,
    coverage = VDict d ∧
    default (VDict ∅) (d !! "games") = VDict g ∧
    games_stats g = VDict sd ∧
    cs = categories_of d g sd.
Proof.
  destruct coverage as [| | | | | |d]; try done.
  destruct (default (VDict ∅) (d !! "games")) as [| | | | | |g] eqn:Eg.
  1-6: by erewrite coverage_to_categories_games.
  rewrite (coverage_to_categories_dict d g Eg).
  destruct (games_stats g) as [| | | | | |sd] eqn:Es; try done.
  intros [= <-]. by exists d, g, sd.
Qed.

(** Statistics chosen in the games come from a games dict that is not
    empty, unless they are the empty default. *)
Lemma games_stats_players (g sd : gmap string value) :
  games_stats g = VDict sd →
  truthy (default (VBool false) (sd !! "players")) = true →
  truthy (VDict g) = true
  ∧ ∃ key, (key = "statistics" ∨ key = "statisitcs")
           ∧ g !! key = Some (VDict sd).
Proof.
  unfold games_stats. cbv zeta.
  destruct (truthy (default VNone (g !! "statistics"))) eqn:H1.
  - intros Es _. split; [by apply truthy_default_lookup in H1|].
    exists "statistics". split; [by left|].
    destruct (g !! "statistics") as [v|]; [|done]. simpl in Es. by subst v.
  - destruct (truthy (default VNone (g !! "statisitcs"))) eqn:H2.
    + intros Es _. split; [by apply truthy_default_lookup in H2|].
      exists "statisitcs". split; [by right|].
      destruct (g !! "statisitcs") as [v|]; [|done]. simpl in Es. by subst v.
    + intros [= <-]. by rewrite lookup_empty.
Qed.

(** X23. A successful call returns categories in the fixed order fixtures,
    results, injuries, odds, lineups, standings, players, each at most once;
    fixtures and results come together, and lineups never without them. *)
Theorem coverage_categories_shape (coverage : value) (cs : list string) :
  coverage_to_categories coverage = Ok cs →
  sublist cs category_order
  ∧ NoDup cs
  ∧ ("fixtures" ∈ cs ↔ "results" ∈ cs)
  ∧ ("lineups" ∈ cs → "fixtures" ∈ cs).
Proof.
  intros H. apply coverage_to_categories_inv in H
    as (d & g & sd & -> & _ & Es & ->).
  pose proof (games_stats_players g sd Es) as Hl. revert Hl.
  unfold categories_of, category_order.
  generalize (injuries_flag d),
    (truthy (default (VBool false) (d !! "odds"))),
    (truthy (default (VBool false) (d !! "standings"))),
    (truthy (default (VBool false) (d !! "players"))).
  intros b2 b3 b5 b6.
  destruct (truthy (default (VBool false) (sd !! "players")));
    destruct (truthy (VDict g)); intros Hl;
    try (by destruct Hl as [[=] _]); clear Hl;
    destruct b2, b3, b5, b6; cbn [seg app];
    (split; [repeat first [apply sublist_nil | apply sublist_skip
                          | apply sublist_cons]|]);
    by apply (bool_decide_unpack _); vm_compute.
Qed.

Lemma coverage_categories_shape_witness :
  sublist ["fixtures"; "results"; "odds"] category_order
  ∧ NoDup ["fixtures"; "results"; "odds"]
  ∧ ("fixtures" ∈ ["fixtures"; "results"; "odds"]
     ↔ "results" ∈ ["fixtures"; "results"; "odds"])
  ∧ ("lineups" ∈ ["fixtures"; "results"; "odds"]
     → "fixtures" ∈ ["fixtures"; "results"; "odds"]).
Proof.
  apply (coverage_categories_shape
           (VDict {[ "games" := VDict {[ "events" := VBool true ]};
                     "odds" := VBool true;
                     "injuries" := VBool false ]})).
  by vm_compute.
Defined.

(** X24. Injuries follow the explicit [injuries] entry when the coverage has
    one, and the [players] entry when it has none. *)
Theorem injuries_inferred (d : gmap string value) (cs : list string) :
  coverage_to_categories (VDict d) = Ok cs →
  match d !! "injuries" with
  | Some v => "injuries" ∈ cs ↔ truthy v = true
  | None => "injuries" ∈ cs ↔ "players" ∈ cs
  end.
Proof.
  intros H. apply coverage_to_categories_inv in H
    as (d' & g & sd & [= <-] & _ & _ & ->).
  unfold categories_of, injuries_flag.
  destruct (d !! "injuries") as [v|]; cbn [from_option id];
    try change (truthy (VBool false)) with false;
    repeat match goal with
           | |- context [truthy ?v] => destruct (truthy v)
           end;
    cbn [seg app orb andb]; by apply (bool_decide_unpack _); vm_compute.
Qed.

Lemma injuries_inferred_witness :
  "injuries" ∈ ["injuries"; "players"] ↔ "players" ∈ ["injuries"; "players"].
Proof.
  assert (coverage_to_categories (VDict {[ "players" := VBool true ]})
          = Ok ["injuries"; "players"]) as H by by vm_compute.
  apply injuries_inferred in H.
  by rewrite lookup_singleton_ne in H.
Defined.

(** X25. Fixtures, odds, standings and players are listed exactly when the
    entry of the coverage they are read from is truthy. *)
Theorem category_flags (d : gmap string value) (cs : list string) :
  coverage_to_categories (VDict d) = Ok cs →
  ("fixtures" ∈ cs ↔ truthy (default (VDict ∅) (d !! "games")) = true)
  ∧ ("odds" ∈ cs ↔ truthy (default (VBool false) (d !! "odds")) = true)
  ∧ ("standings" ∈ cs
     ↔ truthy (default (VBool false) (d !! "standings")) = true)
  ∧ ("players" ∈ cs
     ↔ truthy (default (VBool false) (d !! "players")) = true).
Proof.
  intros H. apply coverage_to_categories_inv in H
    as (d' & g & sd & [= <-] & -> & _ & ->).
  unfold categories_of. generalize (injuries_flag d). intros b2.
  repeat match goal with
         | |- context [truthy ?v] => destruct (truthy v)
         end;
    destruct b2; cbn [seg app];
    by apply (bool_decide_unpack _); vm_compute.
Qed.

Lemma category_flags_witness :
  ("fixtures" ∈ ["odds"]
   ↔ truthy (default (VDict ∅)
               (({[ "odds" := VInt 1 ]} : gmap string value) !! "games"))
     = true)
  ∧ ("odds" ∈ ["odds"]
     ↔ truthy (default (VBool false)
                 (({[ "odds" := VInt 1 ]} : gmap string value) !! "odds"))
       = true)
  ∧ ("standings" ∈ ["odds"]
     ↔ truthy (default (VBool false)
                 (({[ "odds" := VInt 1 ]} : gmap string value) !! "standings"))
       = true)
  ∧ ("players" ∈ ["odds"]
     ↔ truthy (default (VBool false)
                 (({[ "odds" := VInt 1 ]} : gmap string value) !! "players"))
       = true).
Proof.
  apply (category_flags {[ "odds" := VInt 1 ]} ["odds"]).
  by vm_compute.
Defined.

(** X26. Lineups are listed only when the games are a dict whose
    [statistics] entry, or its misspelt twin [statisitcs], is a dict with a
    truthy [players] entry. *)
Theorem lineups_need_statistics (d : gmap string value) (cs : list string) :
  coverage_to_categories (VDict d) = Ok cs →
  "lineups" ∈ cs →
  ∃ (g : gmap string value) (key : string) (sd : gmap string value)
    (p : value),
    d !! "games" = Some (VDict g)
    ∧ (key = "statistics" ∨ key = "statisitcs")
    ∧ g !! key = Some (VDict sd)
    ∧ sd !! "players" = Some p
    ∧ truthy p = true.
Proof.
  intros H. apply coverage_to_categories_inv in H
    as (d' & g & sd & [= <-] & Eg & Es & ->).
  unfold categories_of. generalize (injuries_flag d). intros b2.
  destruct (truthy (default (VBool false) (sd !! "players"))) eqn:E4.
  - intros _. destruct (games_stats_players g sd Es E4)
      as (Hg & key & Hkey & Hsd).
    exists g, key, sd.
    destruct (sd !! "players") as [p|] eqn:Ep; [|done]. exists p.
    repeat (split; [done|]). split; [|done].
    destruct (d !! "games") as [v|]; simpl in Eg; [by subst v|].
    injection Eg as <-. by rewrite lookup_empty in Hsd.
  - repeat match goal with
           | |- context [truthy ?v] => destruct (truthy v)
           end;
      destruct b2; cbn [seg app]; intros Hin; exfalso; revert Hin;
      by apply (bool_decide_unpack _); vm_compute.
Qed.

Lemma lineups_need_statistics_witness :
  ∃ (g : gmap string value) (key : string) (sd : gmap string value)
    (p : value),
    ({[ "games" :=
          VDict {[ "statisitcs" := VDict {[ "players" := VBool true ]} ]} ]}
       : gmap string value) !! "games" = Some (VDict g)
    ∧ (key = "statistics" ∨ key = "statisitcs")
    ∧ g !! key = Some (VDict sd)
    ∧ sd !! "players" = Some p
    ∧ truthy p = true.
Proof.
  apply (lineups_need_statistics _ ["fixtures"; "results"; "lineups"]).
  - by vm_compute.
  - by apply (bool_decide_unpack _); vm_compute.
Defined.

(** X27. When the games are a dict whose [statistics] entry (or, with no
    [statistics] entry, whose [statisitcs] entry) is a dict with a truthy
    [players] entry, the call succeeds and lists fixtures, results and
    lineups. *)
Theorem statistics_give_lineups (d g sd : gmap string value) (key : string)
    (p : value) :
  d !! "games" = Some (VDict g) →
  key = "statistics" ∨ (key = "statisitcs" ∧ g !! "statistics" = None) →
  g !! key = Some (VDict sd) →
  sd !! "players" = Some p →
  truthy p = true →
  ∃ cs, coverage_to_categories (VDict d) = Ok cs
        ∧ "fixtures" ∈ cs ∧ "results" ∈ cs ∧ "lineups" ∈ cs.
Proof.
  intros Hd Hkey Hg Hsd Hp.
  assert (truthy (VDict sd) = true) as Hs
    by apply (truthy_dict_lookup sd "players" p Hsd).
  assert (games_stats g = VDict sd) as Es.
  { unfold games_stats. destruct Hkey as [->|[-> Hn]].
    - by rewrite Hg; cbn [from_option id]; rewrite Hs.
    - by rewrite Hn, Hg; cbn [from_option id]; rewrite Hs. }
  rewrite (coverage_to_categories_dict d g) by by rewrite Hd.
  rewrite Es. eexists. split; [done|].
  unfold categories_of. rewrite Hsd. cbn [from_option id]. rewrite Hp.
  rewrite (truthy_dict_lookup g key (VDict sd) Hg).
  generalize (injuries_flag d),
    (truthy (default (VBool false) (d !! "odds"))),
    (truthy (default (VBool false) (d !! "standings"))),
    (truthy (default (VBool false) (d !! "players"))).
  intros [] [] [] []; cbn [seg app];
    by apply (bool_decide_unpack _); vm_compute.
Qed.

Lemma statistics_give_lineups_witness :
  ∃ cs,
    coverage_to_categories
      (VDict {[ "games" :=
                  VDict {[ "statistics" :=
                             VDict {[ "players" := VBool true ]} ]} ]})
    = Ok cs
    ∧ "fixtures" ∈ cs ∧ "results" ∈ cs ∧ "lineups" ∈ cs.
Proof.
  apply (statistics_give_lineups _
           {[ "statistics" := VDict {[ "players" := VBool true ]} ]}
           {[ "players" := VBool true ]} "statistics" (VBool true)).
  - by vm_compute.
  - by left.
  - by vm_compute.
  - by vm_compute.
  - reflexivity.
Defined.

(** X28. The only exception the function raises is AttributeError. *)
Theorem coverage_only_attribute_error (coverage : value) (e : exn) :
  coverage_to_categories coverage = Raise e → e = AttributeError.
Proof.
  destruct coverage as [| | | | | |d]; try by intros [= <-].
  destruct (default (VDict ∅) (d !! "games")) as [| | | | | |g] eqn:Eg.
  1-6: by erewrite coverage_to_categories_games; [intros [= <-]|..].
  rewrite (coverage_to_categories_dict d g Eg).
  by destruct (games_stats g); intros [= <-].
Qed.

Lemma coverage_only_attribute_error_witness :
  AttributeError = AttributeError.
Proof.
  apply (coverage_only_attribute_error (VList []) AttributeError).
  reflexivity.
Defined.

(** X29. A coverage whose [games] entry is present and is not a dict makes
    the call raise AttributeError, whatever the other entries are. *)
Theorem games_not_a_dict (d : gmap string value) (v : value) :
  d !! "games" = Some v →
  (∀ g, v ≠ VDict g) →
  coverage_to_categories (VDict d) = Raise AttributeError.
Proof.
  intros Hd Hv. apply (coverage_to_categories_games d v); [|done].
  by rewrite Hd.
Qed.

Lemma games_not_a_dict_witness :
  coverage_to_categories
    (VDict {[ "games" := VBool true; "odds" := VBool true ]})
  = Raise AttributeError.
Proof.
  apply (games_not_a_dict _ (VBool true)).
  - by vm_compute.
  - done.
Defined.

(** X30. A coverage with no [games] entry never fails, and lists none of
    fixtures, results and lineups. *)
Theorem coverage_without_games (d : gmap string value) :
  d !! "games" = None →
  ∃ cs, coverage_to_categories (VDict d) = Ok cs
        ∧ ("fixtures" ∉ cs) ∧ ("results" ∉ cs) ∧ ("lineups" ∉ cs).
Proof.
  intros Hd.
  rewrite (coverage_to_categories_dict d ∅) by by rewrite Hd.
  unfold games_stats. rewrite !lookup_empty. cbn [from_option id truthy].
  eexists. split; [done|].
  unfold categories_of. rewrite lookup_empty. cbn [from_option id].
  change (truthy (VBool false)) with false.
  change (truthy (VDict ∅)) with false.
  generalize (injuries_flag d),
    (truthy (default (VBool false) (d !! "odds"))),
    (truthy (default (VBool false) (d !! "standings"))),
    (truthy (default (VBool false) (d !! "players"))).
  intros [] [] [] []; cbn [seg app];
    by apply (bool_decide_unpack _); vm_compute.
Qed.

Lemma coverage_without_games_witness :
  ∃ cs,
    coverage_to_categories (VDict {[ "standings" := VBool true ]}) = Ok cs
    ∧ ("fixtures" ∉ cs) ∧ ("results" ∉ cs) ∧ ("lineups" ∉ cs).
Proof.
  apply (coverage_without_games {[ "standings" := VBool true ]}).
  by vm_compute.
Defined.
